(** * no-deep-relative-imports: the relative-path depth rule

    A shallow embedding of [src/rules/NoDeepRelativeImports.ts] (the Babel
    plugin) and of the part of [PluginOptions] it uses, followed by the
    properties of the rule.

    Conventions.
    - A JavaScript string is a [string] holding its UTF-8 bytes.  The rule
      only looks for the ASCII characters [.] and [/], which never occur
      inside a multi-byte sequence, so prefix tests and matches of [../]
      agree with those on UTF-16 code units.
    - A JavaScript number is an integer [Z]; the only number the plugin
      ever passes around is the literal [2].  The numeral printed into the
      message is the decimal one, which is what the code prints for the
      integers of magnitude below [10^21] ([prints_decimal]).
    - The injected [report] callback acts on an explicit state [St]
      (state passing): a call [report path message] is a state
      transformer.  [log_report] is the recording callback, whose state is
      the list of calls made so far. *)

From Stdlib Require Import ZArith List Lia Bool Numbers.DecimalString Ascii String.
Import ListNotations.
Open Scope string_scope.

(** ** JavaScript built-ins used by the rule *)

Module JS.

(** [s.startsWith(searchString)]. *)
Definition startsWith (s searchString : string) : bool :=
  prefix searchString s.

(** [ToString] of a number inside a template literal: the decimal numeral
    (this is what JavaScript prints for integers of magnitude below
    [10^21]). *)
Definition number_to_string (n : Z) : string :=
  NilZero.string_of_int (Z.to_int n).

(** Matching a literal pattern at the current position: the rest of the
    input after the match. *)
Fixpoint match_here (pat s : string) : option string :=
  match pat with
  | EmptyString => Some s
  | String c pat' =>
      match s with
      | EmptyString => None
      | String d s' => if Ascii.eqb c d then match_here pat' s' else None
      end
  end.

(** [RegExpBuiltinExec] for a (non-sticky) regular expression that is a
    non-empty sequence of literal characters: try the current position,
    and on failure advance by one character, until the end of the input.
    The input is the part of the string from [lastIndex] on; the result
    is the matched text and the input from the new [lastIndex] on. *)
Fixpoint regexp_exec (pat s : string) : option (string * string) :=
  match match_here pat s with
  | Some rest => Some (pat, rest)
  | None =>
      match s with
      | EmptyString => None
      | String _ s' => regexp_exec pat s'
      end
  end.

(** The loop of [RegExp.prototype[Symbol.match]] for a global regular
    expression: call exec until it fails, collecting the matched texts.
    Every match of a non-empty pattern consumes input, so [length s + 1]
    iterations are enough (see [match_loop_fuel]). *)
Fixpoint match_loop (fuel : nat) (pat s : string) : list string :=
  match fuel with
  | O => []
  | S fuel' =>
      match regexp_exec pat s with
      | None => []
      | Some (m, rest) => m :: match_loop fuel' pat rest
      end
  end.

(** [s.match(re)] for a global [re]: [null] ([None]) when there is no
    match, the array of all matches otherwise. *)
Definition String_match (s pat : string) : option (list string) :=
  match match_loop (S (length s)) pat s with
  | [] => None
  | ms => Some ms
  end.

(** [x || []] for [x] an array or [null]. *)
Definition or_empty {A : Type} (x : option (list A)) : list A :=
  match x with
  | Some l => l
  | None => []
  end.

End JS.

(** ** The fragment of the Babel syntax tree the rule reads *)

Module Ast.

Record StringLiteral := { value : string }.

(** Nodes that can stand as the callee or as an argument of a call.  The
    rule tells apart [Import], [Identifier], [MemberExpression] and
    [StringLiteral]; every other kind of the node vocabulary is
    [OtherNode], tagged with its [type]. *)
Inductive Expression :=
| Import
| Identifier (name : string)
| MemberExpression (object property : Expression) (computed : bool)
| StringLiteralNode (lit : StringLiteral)
| OtherNode (type : string).

Module ImportDeclaration.
Record t := { source : StringLiteral }.
End ImportDeclaration.

Module CallExpression.
Record t := { callee : Expression; arguments : list Expression }.
End CallExpression.

Module ExportNamedDeclaration.
Record t := { source : option StringLiteral }.
End ExportNamedDeclaration.

Module ExportAllDeclaration.
Record t := { source : StringLiteral }.
End ExportAllDeclaration.

(** [NodePath<T>]: the handle the traversal passes to a visitor; the rule
    reads its [node] and hands the path itself to [report]. *)
Record NodePath (T : Type) := { node : T }.
Arguments node {T} _.
Arguments Build_NodePath {T} _.

(** The union of the four path types [checkRelativePath] and [report]
    are called with. *)
Inductive AnyNodePath :=
| PathImportDeclaration (p : NodePath ImportDeclaration.t)
| PathCallExpression (p : NodePath CallExpression.t)
| PathExportNamedDeclaration (p : NodePath ExportNamedDeclaration.t)
| PathExportAllDeclaration (p : NodePath ExportAllDeclaration.t).

End Ast.
Import Ast.

(** ** [@babel/core]: the node predicates of [api.types] *)

Module Babel.

(** The predicates take a node, [null] or [undefined] ([None]).
    [isIdentifier] takes the optional [{ name }] to compare with. *)
Record Types := {
  isImport : option Expression -> bool;
  isStringLiteral : option Expression -> bool;
  isIdentifier : option Expression -> option string -> bool;
  isMemberExpression : option Expression -> bool
}.

Record Core := { types : Types }.

Definition t : Types := {|
  isImport := fun n => match n with Some Import => true | _ => false end;
  isStringLiteral :=
    fun n => match n with Some (StringLiteralNode _) => true | _ => false end;
  isIdentifier :=
    fun n opts =>
      match n with
      | Some (Identifier name) =>
          match opts with
          | Some expected => String.eqb name expected
          | None => true
          end
      | _ => false
      end;
  isMemberExpression :=
    fun n => match n with Some (MemberExpression _ _ _) => true | _ => false end
|}.

Definition core : Core := {| types := t |}.

(** Property reads on a node that may lack the property. *)
Definition object_of (n : Expression) : option Expression :=
  match n with
  | MemberExpression o _ _ => Some o
  | _ => None
  end.

Definition value_of (n : Expression) : option string :=
  match n with
  | StringLiteralNode l => Some (value l)
  | _ => None
  end.

End Babel.

(** ** [types.ts]: [PluginOptions] *)

Definition ReportFn (St : Type) : Type := AnyNodePath -> string -> St -> St.

(** The values a property of the options object can hold, as far as the
    properties below need them. *)
Inductive JsValue :=
| JsUndefined
| JsBoolean (b : bool)
| JsNumber (n : Z)
| JsString (s : string).

(** The interface declares the one member [report].  The value the host
    hands to the plugin is the options object of the configuration as the
    user wrote it, and an object that has a [report] is a [PluginOptions]
    whatever else it holds: [other_properties] are the properties the
    interface does not name, such as the [maxDepth] of
    [{ report, maxDepth: 3 }]. *)
Record PluginOptions (St : Type) := {
  report : ReportFn St;
  other_properties : list (string * JsValue)
}.
Arguments report {St} _.
Arguments other_properties {St} _.
Arguments Build_PluginOptions {St} _ _.

(** ** [rules/NoDeepRelativeImports.ts] *)

(** The double quote character of the message. *)
Definition dquote : string := String (ascii_of_nat 34) EmptyString.

(** The regular expression [/\.\.\//g]: the three literal characters. *)
Definition parent_segment : string := "../".

(** [(sourceValue.match(/\.\.\//g) || []).length] *)
Definition depth (sourceValue : string) : nat :=
  List.length (JS.or_empty (JS.String_match sourceValue parent_segment)).

(** The template literal handed to [report]. *)
Definition violation_message (sourceValue : string) (maxDepth : Z) : string :=
  "导入/导出路径 " ++ dquote ++ sourceValue ++ dquote
  ++ " 不能超过最大层级（" ++ JS.number_to_string maxDepth ++ "：层）".

Definition checkRelativePath {St : Type} (sourceValue : string)
    (path : AnyNodePath) (maxDepth : Z) (report : ReportFn St) (st : St) : St :=
  if JS.startsWith sourceValue "." then
    let depth := depth sourceValue in
    if (Z.of_nat depth >? maxDepth)%Z then
      report path (violation_message sourceValue maxDepth) st
    else st
  else st.

Record Visitor (St : Type) := {
  ImportDeclaration : NodePath ImportDeclaration.t -> St -> St;
  CallExpression : NodePath CallExpression.t -> St -> St;
  ExportNamedDeclaration : NodePath ExportNamedDeclaration.t -> St -> St;
  ExportAllDeclaration : NodePath ExportAllDeclaration.t -> St -> St
}.
Arguments ImportDeclaration {St} _ _ _.
Arguments CallExpression {St} _ _ _.
Arguments ExportNamedDeclaration {St} _ _ _.
Arguments ExportAllDeclaration {St} _ _ _.

Record PluginObject (St : Type) := { name : string; visitor : Visitor St }.
Arguments name {St} _.
Arguments visitor {St} _.

(** The first-argument check shared by the two call branches:
    [firstArg && t.isStringLiteral(firstArg)], then [firstArg.value].  The
    last case cannot occur with Babel's [isStringLiteral]. *)
Definition check_first_argument {St : Type} (t : Babel.Types)
    (path : NodePath CallExpression.t) (maxDepth : Z) (report : ReportFn St)
    (st : St) : St :=
  let firstArg := nth_error (CallExpression.arguments (node path)) 0 in
  if (match firstArg with Some _ => true | None => false end)
     && Babel.isStringLiteral t firstArg then
    match firstArg with
    | Some arg =>
        match Babel.value_of arg with
        | Some sourceValue =>
            checkRelativePath sourceValue (PathCallExpression path) maxDepth report st
        | None => st
        end
    | None => st
    end
  else st.

(** The condition of the [else if]: the callee is the identifier [require]
    or a member expression whose [object] is the identifier [require]. *)
Definition is_require_callee (t : Babel.Types) (callee : Expression) : bool :=
  Babel.isIdentifier t (Some callee) (Some "require")
  || (Babel.isMemberExpression t (Some callee)
      && Babel.isIdentifier t (Babel.object_of callee) (Some "require")).

(** The default export: the plugin function.  The [value] of a
    [StringLiteral] is a string by its type, so the guards
    [typeof sourceValue === 'string'] hold and leave no trace here. *)
Definition plugin {St : Type} (api : Babel.Core) (options : PluginOptions St)
    : PluginObject St :=
  let t := Babel.types api in
  let maxDepth := 2%Z in
  let report := report options in
  {| name := "no-deep-relative-imports";
     visitor := {|
       ImportDeclaration := fun path st =>
         let sourceValue := value (ImportDeclaration.source (node path)) in
         checkRelativePath sourceValue (PathImportDeclaration path) maxDepth report st;
       CallExpression := fun path st =>
         if Babel.isImport t (Some (CallExpression.callee (node path))) then
           check_first_argument t path maxDepth report st
         else if is_require_callee t (CallExpression.callee (node path)) then
           check_first_argument t path maxDepth report st
         else st;
       ExportNamedDeclaration := fun path st =>
         match ExportNamedDeclaration.source (node path) with
         | Some source =>
             let sourceValue := value source in
             checkRelativePath sourceValue (PathExportNamedDeclaration path) maxDepth report st
         | None => st
         end;
       ExportAllDeclaration := fun path st =>
         let sourceValue := value (ExportAllDeclaration.source (node path)) in
         checkRelativePath sourceValue (PathExportAllDeclaration path) maxDepth report st
     |} |}.

(** ** The recording report callback *)

Definition Report : Type := (AnyNodePath * string)%type.

Definition log_report : ReportFn (list Report) :=
  fun path message log => (log ++ [(path, message)])%list.

Definition log_options : PluginOptions (list Report) :=
  {| report := log_report; other_properties := [] |}.

(** ** The depth in the words of the specification *)

(** The number of non-overlapping occurrences of [../], scanning from left
    to right: an occurrence is counted and the scan goes on after it;
    elsewhere the scan moves on by one character. *)
Fixpoint count_nonoverlapping (s : string) : nat :=
  match s with
  | EmptyString => 0
  | String c1 t1 =>
      match t1 with
      | String c2 (String c3 t3) =>
          if Ascii.eqb c1 "." && Ascii.eqb c2 "." && Ascii.eqb c3 "/"
          then S (count_nonoverlapping t3)
          else count_nonoverlapping t1
      | _ => count_nonoverlapping t1
      end
  end.

(** The number of positions of the string at which [../] occurs. *)
Fixpoint occurrences (s : string) : nat :=
  match s with
  | EmptyString => 0
  | String _ t => (if prefix "../" s then 1 else 0) + occurrences t
  end.

(** The length of the leading run of [../]: the number of levels a
    normalised path would go up. *)
Fixpoint leading_run (fuel : nat) (s : string) : nat :=
  match fuel with
  | O => 0
  | S fuel' =>
      match JS.match_here "../" s with
      | Some rest => S (leading_run fuel' rest)
      | None => 0
      end
  end.

(** [n] parent segments in a row, and a relative specifier holding them. *)
Fixpoint parents (n : nat) : string :=
  match n with
  | O => EmptyString
  | S n' => "../" ++ parents n'
  end.

Definition specifier_of_depth (n : nat) : string := "./" ++ parents n ++ "x".

(** A visitor checks with the limit [L]: on a node of each of the shapes
    that carries the specifier [s] (an import, a call of the import
    operator, of [require] or of a member of [require], a named export
    with a source, an export-all), it does what [checkRelativePath] does
    with [s], the path of the node and [L]. *)
Definition uses_limit {St : Type} (v : Visitor St) (report : ReportFn St)
    (L : Z) : Prop :=
  forall (s : string) (st : St),
    (forall p, value (ImportDeclaration.source (node p)) = s ->
       ImportDeclaration v p st
       = checkRelativePath s (PathImportDeclaration p) L report st)
    /\ (forall p rest, CallExpression.callee (node p) = Import ->
       CallExpression.arguments (node p) = StringLiteralNode {| value := s |} :: rest ->
       CallExpression v p st
       = checkRelativePath s (PathCallExpression p) L report st)
    /\ (forall p rest, CallExpression.callee (node p) = Identifier "require" ->
       CallExpression.arguments (node p) = StringLiteralNode {| value := s |} :: rest ->
       CallExpression v p st
       = checkRelativePath s (PathCallExpression p) L report st)
    /\ (forall p property computed rest,
       CallExpression.callee (node p)
       = MemberExpression (Identifier "require") property computed ->
       CallExpression.arguments (node p) = StringLiteralNode {| value := s |} :: rest ->
       CallExpression v p st
       = checkRelativePath s (PathCallExpression p) L report st)
    /\ (forall p, ExportNamedDeclaration.source (node p) = Some {| value := s |} ->
       ExportNamedDeclaration v p st
       = checkRelativePath s (PathExportNamedDeclaration p) L report st)
    /\ (forall p, value (ExportAllDeclaration.source (node p)) = s ->
       ExportAllDeclaration v p st
       = checkRelativePath s (PathExportAllDeclaration p) L report st).

(** Node paths for the examples. *)
Definition import_path (s : string) : NodePath ImportDeclaration.t :=
  {| node := {| ImportDeclaration.source := {| value := s |} |} |}.

Definition call_path (callee : Expression) (args : list Expression)
    : NodePath CallExpression.t :=
  {| node := {| CallExpression.callee := callee;
                CallExpression.arguments := args |} |}.

Definition export_named_path (s : option string)
    : NodePath ExportNamedDeclaration.t :=
  {| node := {| ExportNamedDeclaration.source :=
                  option_map (fun v => {| value := v |}) s |} |}.

Definition export_all_path (s : string) : NodePath ExportAllDeclaration.t :=
  {| node := {| ExportAllDeclaration.source := {| value := s |} |} |}.

(** [window.require] and [require.resolve] as callees. *)
Definition window_require : Expression :=
  MemberExpression (Identifier "window") (Identifier "require") false.

Definition require_resolve : Expression :=
  MemberExpression (Identifier "require") (Identifier "resolve") false.

(** The message of the specification, for the specifier [../../../utils]
    and the limit 2. *)
Definition english_message : string :=
  "Import/export path " ++ dquote ++ "../../../utils" ++ dquote
  ++ " must not exceed the maximum depth (2 levels)".

(** ** Notions used by the further properties *)

(** Whether the character [c] occurs in [s]. *)
Fixpoint contains_char (c : ascii) (s : string) : bool :=
  match s with
  | EmptyString => false
  | String d t => Ascii.eqb c d || contains_char c t
  end.

(** One visit, run with the recording callback, as a function of the log
    it starts from: it leaves the log as it is or appends one report, made
    for the path [P], and what it appends does not depend on the log. *)
Definition appends_at_most_one (P : AnyNodePath)
    (visit : list Report -> list Report) : Prop :=
  exists out : list Report,
    (out = [] \/ exists message, out = [(P, message)])
    /\ forall log, visit log = (log ++ out)%list.

(** The callees whose calls are examined: the import operator, the
    identifier [require], a member access on the identifier [require]. *)
Definition examined_callee (callee : Expression) : Prop :=
  callee = Import
  \/ callee = Identifier "require"
  \/ exists property computed,
       callee = MemberExpression (Identifier "require") property computed.

(** The property [key] of an object, [undefined] when it has none; the
    list holds each key once. *)
Fixpoint get_property (key : string) (properties : list (string * JsValue))
    : JsValue :=
  match properties with
  | [] => JsUndefined
  | (k, v) :: rest => if String.eqb k key then v else get_property key rest
  end.

(** The depth an options object asks for under the property [key], read
    as a rule with a configurable depth would read it: the number the
    property holds, and the default 2 when it holds none. *)
Definition requested_depth {St : Type} (key : string)
    (options : PluginOptions St) : Z :=
  match get_property key (other_properties options) with
  | JsNumber n => n
  | _ => 2%Z
  end.

(** The options [{ report, maxDepth: 3 }], with the recording callback. *)
Definition options_max_depth_3 : PluginOptions (list Report) :=
  {| report := log_report;
     other_properties := [("maxDepth", JsNumber 3)] |}.

(** The number of UTF-16 code units a byte of a UTF-8 encoding stands
    for: one for an ASCII byte and for the first byte of a sequence of two
    or three bytes, two (a surrogate pair) for the first byte of a
    sequence of four, none for a continuation byte. *)
Definition code_units_of_byte (c : ascii) : nat :=
  let n := nat_of_ascii c in
  if Nat.ltb n 128 then 1
  else if Nat.ltb n 192 then 0
  else if Nat.ltb n 240 then 1
  else 2.

(** [s.length]: the number of UTF-16 code units of the string whose UTF-8
    bytes are [s]. *)
Fixpoint code_units (s : string) : nat :=
  match s with
  | EmptyString => 0
  | String c t => code_units_of_byte c + code_units t
  end.


(** * Properties *)

(** ** The regular expression match *)

Lemma match_here_length pat s rest :
  JS.match_here pat s = Some rest -> length s = length pat + length rest.
Proof.
  revert s; induction pat as [|c pat IH]; intros s H; simpl in *.
  - now inversion H.
  - destruct s as [|d s]; [discriminate|].
    destruct (Ascii.eqb c d); [|discriminate].
    simpl. f_equal. now apply IH.
Qed.

(** One step of the left-to-right scan, in terms of the match at the
    current position. *)
Lemma count_nonoverlapping_step s :
  count_nonoverlapping s =
  match JS.match_here parent_segment s with
  | Some rest => S (count_nonoverlapping rest)
  | None =>
      match s with
      | EmptyString => 0
      | String _ t => count_nonoverlapping t
      end
  end.
Proof.
  unfold parent_segment.
  destruct s as [|c1 [|c2 [|c3 t3]]];
    cbn [JS.match_here count_nonoverlapping]; try reflexivity.
  - destruct (Ascii.eqb "." c1); reflexivity.
  - destruct (Ascii.eqb "." c1); [|reflexivity].
    destruct (Ascii.eqb "." c2); reflexivity.
  - rewrite (Ascii.eqb_sym c1), (Ascii.eqb_sym c2), (Ascii.eqb_sym c3).
    destruct (Ascii.eqb "." c1), (Ascii.eqb "." c2), (Ascii.eqb "/" c3);
      reflexivity.
Qed.

Lemma regexp_exec_parent s :
  match JS.regexp_exec parent_segment s with
  | Some (m, rest) =>
      m = parent_segment
      /\ count_nonoverlapping s = S (count_nonoverlapping rest)
      /\ length rest < length s
  | None => count_nonoverlapping s = 0
  end.
Proof.
  induction s as [|c s IH].
  - reflexivity.
  - rewrite count_nonoverlapping_step.
    cbn [JS.regexp_exec].
    destruct (JS.match_here parent_segment (String c s)) as [rest|] eqn:E.
    + repeat split. apply match_here_length in E. simpl in *. lia.
    + destruct (JS.regexp_exec parent_segment s) as [[m rest]|]; [|exact IH].
      destruct IH as (-> & -> & Hlen). repeat split. simpl. lia.
Qed.

(** The fuel of [String_match] is enough: the loop stops by itself. *)
Lemma match_loop_fuel fuel s :
  length s < fuel ->
  List.length (JS.match_loop fuel parent_segment s) = count_nonoverlapping s
  /\ Forall (eq parent_segment) (JS.match_loop fuel parent_segment s).
Proof.
  revert s; induction fuel as [|fuel IH]; intros s Hlen; [lia|].
  cbn [JS.match_loop].
  pose proof (regexp_exec_parent s) as H.
  destruct (JS.regexp_exec parent_segment s) as [[m rest]|].
  - destruct H as (-> & -> & Hrest).
    destruct (IH rest ltac:(lia)) as [IHlen IHall].
    split; [simpl; now rewrite IHlen | now constructor].
  - split; [now rewrite H | constructor].
Qed.

Lemma depth_count s : depth s = count_nonoverlapping s.
Proof.
  unfold depth, JS.String_match.
  destruct (match_loop_fuel (S (length s)) s ltac:(lia)) as [<- _].
  now destruct (JS.match_loop _ _ _).
Qed.

(** ** Occurrences of [../] never overlap *)

Lemma match_here_app pat s rest :
  JS.match_here pat s = Some rest -> s = pat ++ rest.
Proof.
  revert s; induction pat as [|c pat IH]; intros s H; cbn [JS.match_here] in H.
  - now inversion H.
  - destruct s as [|d s]; [discriminate|].
    destruct (Ascii.eqb_spec c d) as [<-|]; [|discriminate].
    cbn [append]. f_equal. now apply IH.
Qed.

Lemma prefix_match_here pat s :
  prefix pat s = match JS.match_here pat s with Some _ => true | None => false end.
Proof.
  revert s; induction pat as [|c pat IH]; intros s.
  - now destruct s.
  - destruct s as [|d s]; [reflexivity|].
    cbn [prefix JS.match_here].
    destruct (ascii_dec c d) as [<-|Hne].
    + rewrite Ascii.eqb_refl. apply IH.
    + apply Ascii.eqb_neq in Hne. now rewrite Hne.
Qed.

Lemma occurrences_after_match rest :
  occurrences (parent_segment ++ rest) = S (occurrences rest).
Proof.
  unfold parent_segment. cbn [append occurrences].
  rewrite !prefix_match_here. reflexivity.
Qed.

Lemma count_occurrences_bounded n :
  forall s, length s <= n -> count_nonoverlapping s = occurrences s.
Proof.
  induction n as [|n IH]; intros s Hlen.
  - destruct s; [reflexivity | simpl in Hlen; lia].
  - destruct s as [|c t]; [reflexivity|].
    rewrite count_nonoverlapping_step.
    cbn [occurrences]. rewrite prefix_match_here. fold parent_segment.
    destruct (JS.match_here parent_segment (String c t)) as [rest|] eqn:E.
    + pose proof (match_here_length _ _ _ E) as HL.
      pose proof (match_here_app _ _ _ E) as Eapp.
      pose proof (occurrences_after_match rest) as Ht.
      rewrite <- Eapp in Ht. cbn [occurrences] in Ht.
      rewrite prefix_match_here in Ht. fold parent_segment in Ht.
      rewrite E in Ht.
      rewrite (IH rest) by (simpl in *; lia). lia.
    + simpl in Hlen. rewrite IH by lia. reflexivity.
Qed.

Lemma count_occurrences s : count_nonoverlapping s = occurrences s.
Proof. now apply (count_occurrences_bounded (length s)). Qed.

(** ** [checkRelativePath] *)

Lemma checkRelativePath_eq {St : Type} s p L (report : ReportFn St) st :
  checkRelativePath s p L report st =
  if JS.startsWith s "." && (Z.of_nat (count_nonoverlapping s) >? L)%Z
  then report p (violation_message s L) st
  else st.
Proof.
  unfold checkRelativePath. rewrite depth_count.
  now destruct (JS.startsWith s ".").
Qed.

Lemma checkRelativePath_over {St : Type} s p L (report : ReportFn St) st :
  JS.startsWith s "." = true ->
  (Z.of_nat (count_nonoverlapping s) > L)%Z ->
  checkRelativePath s p L report st = report p (violation_message s L) st.
Proof.
  intros Hrel Hgt. rewrite checkRelativePath_eq, Hrel.
  replace (Z.of_nat (count_nonoverlapping s) >? L)%Z with true; [reflexivity|].
  symmetry. apply Z.gtb_lt. lia.
Qed.

Lemma checkRelativePath_within {St : Type} s p L (report : ReportFn St) st :
  (Z.of_nat (count_nonoverlapping s) <= L)%Z ->
  checkRelativePath s p L report st = st.
Proof.
  intros Hle. rewrite checkRelativePath_eq.
  replace (Z.of_nat (count_nonoverlapping s) >? L)%Z with false.
  - now rewrite andb_false_r.
  - symmetry. rewrite Z.gtb_ltb. apply Z.ltb_ge. lia.
Qed.

Lemma checkRelativePath_not_relative {St : Type} s p L (report : ReportFn St) st :
  JS.startsWith s "." = false ->
  checkRelativePath s p L report st = st.
Proof. intros Hrel. now rewrite checkRelativePath_eq, Hrel. Qed.

Lemma log_report_grows (log : list Report) x : (log ++ [x])%list <> log.
Proof.
  intros H. apply (f_equal (@List.length _)) in H.
  rewrite length_app in H. simpl in H. lia.
Qed.

(** ** Specifiers of a given depth *)

Lemma count_parents_tail n tail :
  count_nonoverlapping (parents n ++ tail) = n + count_nonoverlapping tail.
Proof.
  induction n as [|n IH]; [reflexivity|].
  cbn [parents]. rewrite count_nonoverlapping_step.
  change (JS.match_here parent_segment (("../" ++ parents n) ++ tail))
    with (Some (parents n ++ tail)).
  cbv beta iota. now rewrite IH.
Qed.

Lemma specifier_of_depth_count n :
  JS.startsWith (specifier_of_depth n) "." = true
  /\ count_nonoverlapping (specifier_of_depth n) = n.
Proof.
  split; [reflexivity|].
  unfold specifier_of_depth.
  rewrite count_nonoverlapping_step.
  change (JS.match_here parent_segment ("./" ++ parents n ++ "x")) with (@None string).
  cbn [append]. rewrite count_nonoverlapping_step.
  change (JS.match_here parent_segment (String "/" (parents n ++ "x")))
    with (@None string).
  cbv beta iota. rewrite count_parents_tail. simpl. lia.
Qed.

(** ** The visitors *)

Section Visitors.

Context {St : Type} (options : PluginOptions St).

Lemma visit_import p st :
  ImportDeclaration (visitor (plugin Babel.core options)) p st =
  checkRelativePath (value (ImportDeclaration.source (node p)))
    (PathImportDeclaration p) 2 (report options) st.
Proof. reflexivity. Qed.

Lemma visit_export_all p st :
  ExportAllDeclaration (visitor (plugin Babel.core options)) p st =
  checkRelativePath (value (ExportAllDeclaration.source (node p)))
    (PathExportAllDeclaration p) 2 (report options) st.
Proof. reflexivity. Qed.

Lemma visit_export_named p st :
  ExportNamedDeclaration (visitor (plugin Babel.core options)) p st =
  match ExportNamedDeclaration.source (node p) with
  | Some source =>
      checkRelativePath (value source) (PathExportNamedDeclaration p) 2
        (report options) st
  | None => st
  end.
Proof. reflexivity. Qed.

Lemma check_first_argument_literal p L (report : ReportFn St) st lit :
  nth_error (CallExpression.arguments (node p)) 0 = Some (StringLiteralNode lit) ->
  check_first_argument Babel.t p L report st =
  checkRelativePath (value lit) (PathCallExpression p) L report st.
Proof. intros H. unfold check_first_argument. now rewrite H. Qed.

Lemma check_first_argument_other p L (report : ReportFn St) st :
  (forall lit, nth_error (CallExpression.arguments (node p)) 0
               <> Some (StringLiteralNode lit)) ->
  check_first_argument Babel.t p L report st = st.
Proof.
  intros H. unfold check_first_argument.
  destruct (nth_error (CallExpression.arguments (node p)) 0) as [[| | |lit|]|];
    try reflexivity.
  now destruct (H lit).
Qed.

Lemma visit_call_import p st :
  CallExpression.callee (node p) = Import ->
  CallExpression (visitor (plugin Babel.core options)) p st = check_first_argument Babel.t p 2 (report options) st.
Proof. intros H. cbn. now rewrite H. Qed.

Lemma visit_call_require p st :
  is_require_callee Babel.t (CallExpression.callee (node p)) = true ->
  CallExpression (visitor (plugin Babel.core options)) p st = check_first_argument Babel.t p 2 (report options) st.
Proof.
  intros H. cbn [plugin visitor CallExpression Babel.types Babel.core].
  rewrite H. now destruct (Babel.isImport _ _).
Qed.

Lemma visit_call_other p st :
  CallExpression.callee (node p) <> Import ->
  is_require_callee Babel.t (CallExpression.callee (node p)) = false ->
  CallExpression (visitor (plugin Babel.core options)) p st = st.
Proof.
  intros Hi H. cbn [plugin visitor CallExpression Babel.types Babel.core].
  rewrite H. now destruct (CallExpression.callee (node p)).
Qed.

End Visitors.

(** The callees the [else if] accepts. *)
Lemma is_require_callee_shape callee :
  is_require_callee Babel.t callee = true <->
  (callee = Identifier "require"
   \/ exists property computed,
        callee = MemberExpression (Identifier "require") property computed).
Proof.
  unfold is_require_callee. split.
  - destruct callee as [|name|object property computed|lit|type]; cbn;
      try discriminate.
    + rewrite orb_false_r. intros H. apply String.eqb_eq in H. left. now subst.
    + destruct object as [|name| | |]; try discriminate.
      intros H. apply String.eqb_eq in H. right. subst. eauto.
  - intros [->|(property & computed & ->)]; reflexivity.
Qed.

Lemma plugin_uses_max_depth {St : Type} (options : PluginOptions St) :
  uses_limit (visitor (plugin Babel.core options)) (report options) 2.
Proof.
  intros s st. repeat split.
  - intros p <-. apply visit_import.
  - intros p rest Hc Ha. rewrite visit_call_import by assumption.
    apply (check_first_argument_literal p 2 (report options) st {| value := s |}).
    now rewrite Ha.
  - intros p rest Hc Ha. rewrite visit_call_require by now rewrite Hc.
    apply (check_first_argument_literal p 2 (report options) st {| value := s |}).
    now rewrite Ha.
  - intros p property computed rest Hc Ha.
    rewrite visit_call_require by now rewrite Hc.
    apply (check_first_argument_literal p 2 (report options) st {| value := s |}).
    now rewrite Ha.
  - intros p Hs. rewrite visit_export_named. now rewrite Hs.
  - intros p <-. apply visit_export_all.
Qed.

(** The plugin reads nothing of its options but [report]. *)
Lemma plugin_reads_report_only {St : Type} (options options' : PluginOptions St) :
  report options' = report options ->
  plugin Babel.core options' = plugin Babel.core options.
Proof. intros H. unfold plugin. now rewrite H. Qed.

(** * The claims *)

(** C1.  For a specifier that begins with [.], [checkRelativePath] reports
    a violation if and only if the number of non-overlapping occurrences
    of [../] in it is strictly greater than the depth limit; with exactly
    [limit] occurrences nothing is reported, with [limit + 1] the
    violation is. *)
Theorem C1_violation_iff_count_exceeds_limit :
  forall (s : string) (p : AnyNodePath) (limit : Z) (log : list Report),
    JS.startsWith s "." = true ->
    (checkRelativePath s p limit log_report log
       = (log ++ [(p, violation_message s limit)])%list
     <-> (Z.of_nat (count_nonoverlapping s) > limit)%Z)
    /\ (checkRelativePath s p limit log_report log = log
        <-> (Z.of_nat (count_nonoverlapping s) <= limit)%Z)
    /\ (Z.of_nat (count_nonoverlapping s) = limit ->
        checkRelativePath s p limit log_report log = log)
    /\ (Z.of_nat (count_nonoverlapping s) = (limit + 1)%Z ->
        checkRelativePath s p limit log_report log
        = (log ++ [(p, violation_message s limit)])%list).
Proof.
  intros s p limit log Hrel.
  assert (Hover : (Z.of_nat (count_nonoverlapping s) > limit)%Z ->
                  checkRelativePath s p limit log_report log
                  = (log ++ [(p, violation_message s limit)])%list)
    by (intros H; now rewrite checkRelativePath_over).
  assert (Hwithin : (Z.of_nat (count_nonoverlapping s) <= limit)%Z ->
                    checkRelativePath s p limit log_report log = log)
    by (intros H; now rewrite checkRelativePath_within).
  repeat split.
  - intros H.
    destruct (Z_le_gt_dec (Z.of_nat (count_nonoverlapping s)) limit) as [Hle|Hgt];
      [|exact Hgt].
    rewrite Hwithin in H by exact Hle.
    symmetry in H. now apply log_report_grows in H.
  - exact Hover.
  - intros H.
    destruct (Z_le_gt_dec (Z.of_nat (count_nonoverlapping s)) limit) as [Hle|Hgt];
      [exact Hle|].
    rewrite Hover in H by exact Hgt.
    now apply log_report_grows in H.
  - exact Hwithin.
  - intros H. apply Hwithin. lia.
  - intros H. apply Hover. lia.
Qed.

Lemma C1_witness :
  JS.startsWith "../../../utils" "." = true
  /\ checkRelativePath "../../../utils" (PathImportDeclaration (import_path "../../../utils"))
       2 log_report []
     = [(PathImportDeclaration (import_path "../../../utils"),
         violation_message "../../../utils" 2)].
Proof.
  split; [reflexivity|].
  apply (C1_violation_iff_count_exceeds_limit "../../../utils"
           (PathImportDeclaration (import_path "../../../utils")) 2 []);
    [reflexivity | vm_compute; reflexivity].
Defined.

(** For every limit there are relative specifiers on both sides of the
    boundary. *)
Lemma boundary_specifiers (n : nat) (p : AnyNodePath) (log : list Report) :
  checkRelativePath (specifier_of_depth n) p (Z.of_nat n) log_report log = log
  /\ checkRelativePath (specifier_of_depth (S n)) p (Z.of_nat n) log_report log
     = (log ++ [(p, violation_message (specifier_of_depth (S n)) (Z.of_nat n))])%list.
Proof.
  destruct (specifier_of_depth_count n) as [Hr Hc].
  destruct (specifier_of_depth_count (S n)) as [Hr' Hc'].
  split.
  - apply checkRelativePath_within. rewrite Hc. lia.
  - apply checkRelativePath_over; [exact Hr'|]. rewrite Hc'. lia.
Qed.

(** C2 (as the code has it).  When a violation is reported, the message
    handed to the report callback is the template of the source with the
    original specifier and the limit substituted: for [../../../utils] and
    the limit 2 it is the text below, not the English sentence. *)
Theorem C2_message_is_the_source_template :
  forall (s : string) (p : AnyNodePath) (limit : Z) (log : list Report),
    JS.startsWith s "." = true ->
    (Z.of_nat (count_nonoverlapping s) > limit)%Z ->
    checkRelativePath s p limit log_report log
    = (log ++ [(p, ("导入/导出路径 " ++ dquote ++ s ++ dquote
                    ++ " 不能超过最大层级（" ++ JS.number_to_string limit
                    ++ "：层）")%string)])%list
    /\ violation_message "../../../utils" 2
       = "导入/导出路径 " ++ dquote ++ "../../../utils" ++ dquote
         ++ " 不能超过最大层级（2：层）".
Proof.
  intros s p limit log Hrel Hgt. split; [|reflexivity].
  now rewrite checkRelativePath_over.
Qed.

Lemma C2_witness :
  checkRelativePath "../../../utils" (PathImportDeclaration (import_path "../../../utils"))
    2 log_report []
  = [(PathImportDeclaration (import_path "../../../utils"),
      "导入/导出路径 " ++ dquote ++ "../../../utils" ++ dquote
      ++ " 不能超过最大层级（2：层）")].
Proof.
  apply (C2_message_is_the_source_template "../../../utils"
           (PathImportDeclaration (import_path "../../../utils")) 2 []);
    [reflexivity | vm_compute; reflexivity].
Defined.

(** C2, as stated, fails: the static import of [../../../utils] is
    reported with a message that is not the English sentence. *)
Lemma C2_counterexample :
  exists message,
    ImportDeclaration (visitor (plugin Babel.core log_options))
      (import_path "../../../utils") []
    = [(PathImportDeclaration (import_path "../../../utils"), message)]
    /\ message <> english_message.
Proof.
  eexists. split; [vm_compute; reflexivity|].
  vm_compute. discriminate.
Qed.

(** C3 (as the code has it).  The maximum permitted depth is not a
    tunable: the plugin reads nothing of its options but the report
    callback, and the limit is the constant 2 of the plugin function.  For
    every options value passed to the plugin, whatever further properties
    it holds, all four visitors check with the limit 2, and two options
    values with the same report callback give the same plugin. *)
Theorem C3_limit_is_the_constant_two :
  forall (St : Type) (options : PluginOptions St),
    uses_limit (visitor (plugin Babel.core options)) (report options) 2
    /\ forall options' : PluginOptions St,
         report options' = report options ->
         plugin Babel.core options' = plugin Babel.core options.
Proof.
  intros St options. split.
  - apply plugin_uses_max_depth.
  - intros options'. apply plugin_reads_report_only.
Qed.

Lemma C3_witness :
  CallExpression (visitor (plugin Babel.core options_max_depth_3))
    (call_path require_resolve [StringLiteralNode {| value := "../../../deep" |}]) []
  = checkRelativePath "../../../deep"
      (PathCallExpression
         (call_path require_resolve
            [StringLiteralNode {| value := "../../../deep" |}]))
      2 log_report []
  /\ plugin Babel.core options_max_depth_3 = plugin Babel.core log_options.
Proof.
  split.
  - apply (proj1 (proj2 (proj2 (proj2
             (proj1 (C3_limit_is_the_constant_two (list Report)
                       options_max_depth_3)
                "../../../deep" []))))
             (call_path require_resolve
                [StringLiteralNode {| value := "../../../deep" |}])
             (Identifier "resolve") false []);
      reflexivity.
  - apply (proj2 (C3_limit_is_the_constant_two (list Report) log_options)
             options_max_depth_3).
    reflexivity.
Defined.

(** C3, as stated, fails at the options [{ report, maxDepth: 3 }]: the
    depth they ask for is 3, and the visitors built from them do not check
    with 3.  The import of [../../../deep], which holds three [../], is
    reported, and the message names the limit 2. *)
Lemma C3_counterexample :
  requested_depth "maxDepth" options_max_depth_3 = 3%Z
  /\ ~ uses_limit (visitor (plugin Babel.core options_max_depth_3))
        (report options_max_depth_3)
        (requested_depth "maxDepth" options_max_depth_3)
  /\ count_nonoverlapping "../../../deep" = 3
  /\ ImportDeclaration (visitor (plugin Babel.core options_max_depth_3))
       (import_path "../../../deep") []
     = [(PathImportDeclaration (import_path "../../../deep"),
         violation_message "../../../deep" 2)].
Proof.
  split; [reflexivity|]. split; [|split; reflexivity].
  intros H.
  destruct (H "../../../deep" []) as [Himport _].
  specialize (Himport (import_path "../../../deep") eq_refl).
  vm_compute in Himport. discriminate Himport.
Qed.

(** With the recording callback, 2 is the only limit the visitors can be
    said to check with. *)
Lemma limit_in_use_unique (L : Z) :
  uses_limit (visitor (plugin Babel.core log_options)) log_report L -> L = 2%Z.
Proof.
  intros H.
  destruct (H (specifier_of_depth 2) []) as [H2 _].
  destruct (H (specifier_of_depth 3) []) as [H3 _].
  specialize (H2 (import_path (specifier_of_depth 2)) eq_refl).
  specialize (H3 (import_path (specifier_of_depth 3)) eq_refl).
  rewrite visit_import in H2, H3.
  cbn [import_path node ImportDeclaration.source value report log_options]
    in H2, H3.
  destruct (specifier_of_depth_count 2) as [Hr2 Hc2].
  destruct (specifier_of_depth_count 3) as [Hr3 Hc3].
  rewrite (checkRelativePath_within (specifier_of_depth 2) _ 2%Z) in H2
    by (rewrite Hc2; lia).
  rewrite (checkRelativePath_over (specifier_of_depth 3) _ 2%Z) in H3
    by (trivial; rewrite Hc3; lia).
  destruct (Z_le_gt_dec 2 L) as [Hle|Hgt].
  - destruct (Z_le_gt_dec 3 L) as [Hle3|Hgt3]; [|lia].
    rewrite checkRelativePath_within in H3 by (rewrite Hc3; lia).
    now apply log_report_grows in H3.
  - rewrite checkRelativePath_over in H2 by (trivial; rewrite Hc2; lia).
    symmetry in H2. now apply log_report_grows in H2.
Qed.

(** No property of the options sets the limit: whatever the options hold
    beside the recording callback, 2 is the only limit in use. *)
Lemma no_property_sets_the_limit (properties : list (string * JsValue)) (L : Z) :
  uses_limit
    (visitor (plugin Babel.core
                {| report := log_report; other_properties := properties |}))
    log_report L ->
  L = 2%Z.
Proof.
  rewrite (plugin_reads_report_only log_options
             {| report := log_report; other_properties := properties |} eq_refl).
  apply limit_in_use_unique.
Qed.

(** C4 (as the code has it).  The require check accepts a callee that is
    the bare identifier [require] or a member access whose base object is
    the identifier [require] (as in [require.resolve(...)]).  A call with
    such a callee and a string-literal first argument that begins with
    [.] and holds more than two [../] makes the report callback run
    exactly once, with the path of the call.  A call through
    [window.require(...)] is not checked: its base object is [window]. *)
Theorem C4_require_call_reported_once :
  forall (p : NodePath CallExpression.t),
    (is_require_callee Babel.t (CallExpression.callee (node p)) = true
     <-> (CallExpression.callee (node p) = Identifier "require"
          \/ exists property computed,
               CallExpression.callee (node p)
               = MemberExpression (Identifier "require") property computed))
    /\ (forall (s : string) (log : list Report),
          is_require_callee Babel.t (CallExpression.callee (node p)) = true ->
          nth_error (CallExpression.arguments (node p)) 0
          = Some (StringLiteralNode {| value := s |}) ->
          JS.startsWith s "." = true ->
          (Z.of_nat (count_nonoverlapping s) > 2)%Z ->
          CallExpression (visitor (plugin Babel.core log_options)) p log
          = (log ++ [(PathCallExpression p, violation_message s 2)])%list)
    /\ (forall (St : Type) (options : PluginOptions St) (st : St),
          CallExpression.callee (node p) = window_require ->
          CallExpression (visitor (plugin Babel.core options)) p st = st).
Proof.
  intros p. split; [apply is_require_callee_shape|]. split.
  - intros s log Hreq Harg Hrel Hgt.
    rewrite visit_call_require by exact Hreq.
    rewrite (check_first_argument_literal p 2 _ log {| value := s |}) by exact Harg.
    now apply checkRelativePath_over.
  - intros St options st Hc.
    apply visit_call_other; rewrite Hc; [discriminate | reflexivity].
Qed.

Lemma C4_witness :
  CallExpression (visitor (plugin Babel.core log_options))
    (call_path require_resolve [StringLiteralNode {| value := "../../../../pkg" |}]) []
  = [(PathCallExpression
        (call_path require_resolve [StringLiteralNode {| value := "../../../../pkg" |}]),
      violation_message "../../../../pkg" 2)].
Proof.
  apply (proj1 (proj2 (C4_require_call_reported_once
           (call_path require_resolve
              [StringLiteralNode {| value := "../../../../pkg" |}])))
           "../../../../pkg" []);
    [reflexivity | reflexivity | reflexivity | vm_compute; reflexivity].
Defined.

(** C4, as stated, fails: [window.require("../../../../pkg")], whose
    argument begins with [.] and holds four [../], is not reported. *)
Lemma C4_counterexample :
  JS.startsWith "../../../../pkg" "." = true
  /\ count_nonoverlapping "../../../../pkg" = 4
  /\ CallExpression (visitor (plugin Babel.core log_options))
       (call_path window_require [StringLiteralNode {| value := "../../../../pkg" |}]) []
     = [].
Proof. split; [reflexivity | split; reflexivity]. Qed.

(** C5.  The depth of a specifier is the number of non-overlapping
    occurrences of [../] anywhere in it, scanning from left to right,
    also those that are not at the start; it is the number of positions
    at which [../] occurs.  The specifier [./a/../../b] has depth 2,
    although it begins with no [../]. *)
Theorem C5_depth_counts_every_parent_segment :
  (forall s, depth s = count_nonoverlapping s)
  /\ (forall s, depth s = occurrences s)
  /\ depth "./a/../../b" = 2
  /\ leading_run (length "./a/../../b") "./a/../../b" = 0.
Proof.
  split; [apply depth_count|]. split; [|split; reflexivity].
  intros s. rewrite depth_count. apply count_occurrences.
Qed.

(** C6.  For a specifier that does not begin with [.], the empty string
    among them, nothing is reported: the report callback is not called,
    whatever the limit and whatever the callback. *)
Theorem C6_non_relative_never_reported :
  forall (St : Type) (p : AnyNodePath) (limit : Z) (report : ReportFn St) (st : St),
    (forall s, JS.startsWith s "." = false ->
               checkRelativePath s p limit report st = st)
    /\ JS.startsWith EmptyString "." = false
    /\ checkRelativePath EmptyString p limit report st = st.
Proof.
  intros St p limit report st. split; [|split; reflexivity].
  intros s Hrel. now apply checkRelativePath_not_relative.
Qed.

Lemma C6_witness :
  JS.startsWith "lodash/../../../x" "." = false
  /\ checkRelativePath "lodash/../../../x"
       (PathImportDeclaration (import_path "lodash/../../../x")) 0 log_report []
     = [].
Proof.
  split; [reflexivity|].
  apply (proj1 (C6_non_relative_never_reported (list Report)
           (PathImportDeclaration (import_path "lodash/../../../x")) 0
           log_report [])).
  reflexivity.
Defined.

(** C7.  For a dynamic import call (the callee is the import operator)
    whose first argument is not a string literal (a computed expression,
    a variable, or no argument at all), nothing is classified and the
    report callback is not called, whatever the limit. *)
Theorem C7_dynamic_import_without_literal_is_skipped :
  forall (St : Type) (options : PluginOptions St)
         (p : NodePath CallExpression.t) (st : St),
    CallExpression.callee (node p) = Import ->
    (forall lit, nth_error (CallExpression.arguments (node p)) 0
                 <> Some (StringLiteralNode lit)) ->
    CallExpression (visitor (plugin Babel.core options)) p st = st
    /\ (forall limit, check_first_argument Babel.t p limit (report options) st = st).
Proof.
  intros St options p st Hcallee Harg. split.
  - rewrite visit_call_import by exact Hcallee.
    now apply check_first_argument_other.
  - intros limit. now apply check_first_argument_other.
Qed.

Lemma C7_witness :
  CallExpression (visitor (plugin Babel.core log_options))
    (call_path Import [Identifier "modulePath"]) []
  = []
  /\ CallExpression (visitor (plugin Babel.core log_options))
       (call_path Import []) []
     = [].
Proof.
  split.
  - apply (C7_dynamic_import_without_literal_is_skipped (list Report) log_options
             (call_path Import [Identifier "modulePath"]) []);
      [reflexivity | intros lit; simpl; discriminate].
  - apply (C7_dynamic_import_without_literal_is_skipped (list Report) log_options
             (call_path Import []) []);
      [reflexivity | intros lit; simpl; discriminate].
Defined.

(** C8 (as the code has it).  A named export declaration with no source
    performs no check: nothing is classified and nothing is reported.  An
    export-all declaration always has its source classified; a wildcard
    re-export of a source that begins with [.] and holds more than two
    [../] produces a violation. *)
Theorem C8_reexports :
  forall (St : Type) (options : PluginOptions St) (st : St),
    (forall p, ExportNamedDeclaration.source (node p) = None ->
       ExportNamedDeclaration (visitor (plugin Babel.core options)) p st = st)
    /\ (forall p,
          ExportAllDeclaration (visitor (plugin Babel.core options)) p st
          = checkRelativePath (value (ExportAllDeclaration.source (node p)))
              (PathExportAllDeclaration p) 2 (report options) st)
    /\ (forall p,
          JS.startsWith (value (ExportAllDeclaration.source (node p))) "." = true ->
          (Z.of_nat (count_nonoverlapping
                       (value (ExportAllDeclaration.source (node p)))) > 2)%Z ->
          ExportAllDeclaration (visitor (plugin Babel.core options)) p st
          = report options (PathExportAllDeclaration p)
              (violation_message (value (ExportAllDeclaration.source (node p))) 2)
              st).
Proof.
  intros St options st. split; [|split].
  - intros p Hsrc. rewrite visit_export_named. now rewrite Hsrc.
  - intros p. apply visit_export_all.
  - intros p Hrel Hgt. rewrite visit_export_all.
    now apply checkRelativePath_over.
Qed.

Lemma C8_witness :
  ExportNamedDeclaration (visitor (plugin Babel.core log_options))
    (export_named_path None) []
  = []
  /\ ExportAllDeclaration (visitor (plugin Babel.core log_options))
       (export_all_path "../../../deep") []
     = [(PathExportAllDeclaration (export_all_path "../../../deep"),
         violation_message "../../../deep" 2)].
Proof.
  split.
  - apply (proj1 (C8_reexports (list Report) log_options [])
             (export_named_path None)).
    reflexivity.
  - apply (proj2 (proj2 (C8_reexports (list Report) log_options []))
             (export_all_path "../../../deep"));
      [reflexivity | vm_compute; reflexivity].
Defined.

(** C8, as stated, fails: the wildcard re-export of
    [pkg/../../../deep], which holds three [../], is not reported, since
    the source does not begin with [.]. *)
Lemma C8_counterexample :
  count_nonoverlapping "pkg/../../../deep" = 3
  /\ ExportAllDeclaration (visitor (plugin Babel.core log_options))
       (export_all_path "pkg/../../../deep") []
     = [].
Proof. split; reflexivity. Qed.


Lemma match_here_trailing_parent s :
  match JS.match_here parent_segment (s ++ "..") with
  | Some _ => true
  | None => false
  end
  = match JS.match_here parent_segment s with
    | Some _ => true
    | None => false
    end.
Proof.
  unfold parent_segment.
  destruct s as [|c [|d [|e t]]]; cbn [append JS.match_here].
  - reflexivity.
  - now destruct (Ascii.eqb "." c).
  - now destruct (Ascii.eqb "." c), (Ascii.eqb "." d).
  - now destruct (Ascii.eqb "." c), (Ascii.eqb "." d), (Ascii.eqb "/" e).
Qed.

Lemma occurrences_trailing_parent s :
  occurrences (s ++ "..") = occurrences s.
Proof.
  induction s as [|c t IH]; [reflexivity|].
  change (String c t ++ "..") with (String c (t ++ "..")).
  cbn [occurrences]. rewrite !prefix_match_here, IH.
  fold parent_segment.
  change (String c (t ++ "..")) with (String c t ++ "..").
  now rewrite match_here_trailing_parent.
Qed.

Lemma depth_trailing_parent s : depth (s ++ "..") = depth s.
Proof.
  rewrite !depth_count, !count_occurrences.
  apply occurrences_trailing_parent.
Qed.

(** C10.  A last parent segment that no slash follows is not counted:
    a [..] at the end of any specifier leaves its depth as it is.  So
    [..] has depth 0, [../..] has depth 1 and [../../..] has depth 2,
    [n] segments followed by [..] have depth [n] and are not reported
    under the limit [n], and with the limit 2 the specifier [../../..]
    is not reported although it goes up three levels. *)
Theorem C10_trailing_parent_segment_not_counted :
  (forall s, depth (s ++ "..") = depth s)
  /\ (forall n, depth (parents n ++ "..") = n)
  /\ (forall (St : Type) (n : nat) (p : AnyNodePath) (report : ReportFn St)
             (st : St),
        checkRelativePath (parents n ++ "..") p (Z.of_nat n) report st = st)
  /\ depth ".." = 0
  /\ depth "../.." = 1
  /\ depth "../../.." = 2
  /\ JS.startsWith "../../.." "." = true
  /\ (forall (St : Type) (p : AnyNodePath) (report : ReportFn St) (st : St),
        checkRelativePath "../../.." p 2 report st = st)
  /\ ImportDeclaration (visitor (plugin Babel.core log_options))
       (import_path "../../..") []
     = [].
Proof.
  assert (Hn : forall n, depth (parents n ++ "..") = n).
  { intros n. rewrite depth_trailing_parent.
    rewrite depth_count.
    replace (parents n) with (parents n ++ EmptyString).
    - rewrite count_parents_tail. simpl. lia.
    - induction n as [|n IH]; [reflexivity|]. simpl. now rewrite IH. }
  split; [apply depth_trailing_parent|]. split; [exact Hn|]. split.
  - intros St n p report st. apply checkRelativePath_within.
    rewrite <- depth_count, Hn. lia.
  - repeat (split; [reflexivity|]). reflexivity.
Qed.

(** * Further properties of the rule *)

(** ** Strings *)

Lemma string_length_append (a b : string) :
  length (a ++ b) = length a + length b.
Proof. induction a as [|c a IH]; [reflexivity|]. simpl. now rewrite IH. Qed.

Lemma string_append_inv_head (a s s' : string) : a ++ s = a ++ s' -> s = s'.
Proof.
  induction a as [|c a IH]; [trivial|].
  simpl. intros H. inversion H. now apply IH.
Qed.

Lemma string_append_inv_tail (b s s' : string) : s ++ b = s' ++ b -> s = s'.
Proof.
  revert s'; induction s as [|c s IH]; intros [|c' s'] H.
  - reflexivity.
  - apply (f_equal length) in H. simpl in H.
    rewrite string_length_append in H. lia.
  - apply (f_equal length) in H. simpl in H.
    rewrite string_length_append in H. lia.
  - simpl in H. inversion H. f_equal. now apply IH.
Qed.

Lemma match_here_append pat a b rest :
  JS.match_here pat a = Some rest ->
  JS.match_here pat (a ++ b) = Some (rest ++ b).
Proof.
  revert a; induction pat as [|c pat IH]; intros a H; cbn [JS.match_here] in *.
  - now inversion H.
  - destruct a as [|d a]; [discriminate|]. cbn [append].
    destruct (Ascii.eqb c d); [now apply IH | discriminate].
Qed.

(** ** The depth and the length of a specifier *)

Lemma count_length_bounded n :
  forall s, length s <= n -> 3 * count_nonoverlapping s <= length s.
Proof.
  induction n as [|n IH]; intros s Hlen.
  - destruct s; [simpl; lia | simpl in Hlen; lia].
  - destruct s as [|c t]; [simpl; lia|].
    rewrite count_nonoverlapping_step.
    destruct (JS.match_here parent_segment (String c t)) as [rest|] eqn:E.
    + apply match_here_length in E.
      change (length parent_segment) with 3 in E.
      specialize (IH rest ltac:(lia)). lia.
    + simpl in Hlen. specialize (IH t ltac:(lia)). simpl. lia.
Qed.

Lemma count_code_units_bounded n :
  forall s, length s <= n -> 3 * count_nonoverlapping s <= code_units s.
Proof.
  induction n as [|n IH]; intros s Hlen.
  - destruct s; [simpl; lia | simpl in Hlen; lia].
  - destruct s as [|c t]; [simpl; lia|].
    rewrite count_nonoverlapping_step.
    destruct (JS.match_here parent_segment (String c t)) as [rest|] eqn:E.
    + pose proof (match_here_length _ _ _ E) as HL.
      change (length parent_segment) with 3 in HL.
      apply match_here_app in E. rewrite E.
      change (code_units (parent_segment ++ rest)) with (3 + code_units rest).
      specialize (IH rest ltac:(lia)). lia.
    + simpl in Hlen. specialize (IH t ltac:(lia)).
      cbn [code_units]. lia.
Qed.

(** X1.  Every [../] takes three characters of the specifier: three times
    the depth is at most the length of the specifier, counted in UTF-16
    code units (the [length] of the JavaScript string) as well as in
    bytes of UTF-8, so that a specifier of fewer than [3 * (limit + 1)]
    code units is never reported. *)
Theorem X1_short_specifier_never_reported :
  forall (s : string),
    3 * depth s <= code_units s
    /\ 3 * depth s <= length s
    /\ forall (St : Type) (p : AnyNodePath) (limit : Z)
              (report : ReportFn St) (st : St),
         (Z.of_nat (code_units s) < 3 * (limit + 1))%Z ->
         checkRelativePath s p limit report st = st.
Proof.
  intros s.
  assert (Hunits : 3 * count_nonoverlapping s <= code_units s)
    by now apply (count_code_units_bounded (length s)).
  assert (Hbytes : 3 * count_nonoverlapping s <= length s)
    by now apply (count_length_bounded (length s)).
  rewrite depth_count. split; [exact Hunits|]. split; [exact Hbytes|].
  intros St p limit report st Hshort.
  apply checkRelativePath_within. lia.
Qed.

Lemma X1_witness :
  code_units "../../éé" = 8
  /\ length "../../éé" = 10
  /\ checkRelativePath "../../éé" (PathImportDeclaration (import_path "../../éé"))
       2 log_report []
     = [].
Proof.
  split; [reflexivity|]. split; [reflexivity|].
  apply (proj2 (proj2 (X1_short_specifier_never_reported "../../éé"))
           (list Report)
           (PathImportDeclaration (import_path "../../éé")) 2%Z log_report []).
  vm_compute. reflexivity.
Defined.

(** ** Leading segments *)

Lemma count_after_parent s :
  count_nonoverlapping (parent_segment ++ s) = S (count_nonoverlapping s).
Proof. now rewrite count_nonoverlapping_step. Qed.

Lemma count_after_current s :
  count_nonoverlapping ("./" ++ s) = count_nonoverlapping s.
Proof.
  rewrite count_nonoverlapping_step.
  change (JS.match_here parent_segment ("./" ++ s)) with (@None string).
  cbn [append]. rewrite count_nonoverlapping_step.
  change (JS.match_here parent_segment (String "/" s)) with (@None string).
  reflexivity.
Qed.

(** X2.  Leading segments add up: a [../] in front of a specifier raises
    its depth by one, [n] of them by [n], and a [./] in front leaves the
    depth as it is. *)
Theorem X2_leading_segments_add_up :
  forall (s : string) (n : nat),
    depth ("../" ++ s) = S (depth s)
    /\ depth ("./" ++ s) = depth s
    /\ depth (parents n ++ s) = n + depth s.
Proof.
  intros s n. rewrite !depth_count. split; [|split].
  - apply count_after_parent.
  - apply count_after_current.
  - apply count_parents_tail.
Qed.

Lemma leading_run_le_count fuel :
  forall s, leading_run fuel s <= count_nonoverlapping s.
Proof.
  induction fuel as [|fuel IH]; intros s; [simpl; lia|].
  cbn [leading_run]. rewrite count_nonoverlapping_step.
  fold parent_segment.
  destruct (JS.match_here parent_segment s) as [rest|]; [|lia].
  specialize (IH rest). lia.
Qed.

Lemma startsWith_parents n tail :
  1 <= n -> JS.startsWith (parents n ++ tail) "." = true.
Proof. destruct n as [|n]; [lia|]. reflexivity. Qed.

(** X3.  The rule misses no specifier that begins with too many parent
    segments: the depth is at least the length of the leading run of
    [../], and a specifier that begins with [n >= 1] segments, [n] above
    the limit, is reported whatever follows them. *)
Theorem X3_leading_parents_always_reported :
  forall (n : nat) (tail : string) (p : AnyNodePath) (limit : Z)
         (log : list Report),
    1 <= n ->
    (Z.of_nat n > limit)%Z ->
    (forall fuel s, leading_run fuel s <= depth s)
    /\ checkRelativePath (parents n ++ tail) p limit log_report log
       = (log ++ [(p, violation_message (parents n ++ tail) limit)])%list.
Proof.
  intros n tail p limit log Hn Hgt. split.
  - intros fuel s. rewrite depth_count. apply leading_run_le_count.
  - apply checkRelativePath_over; [now apply startsWith_parents|].
    rewrite count_parents_tail. lia.
Qed.

Lemma X3_witness :
  checkRelativePath (parents 3 ++ "a/b/../c")
    (PathImportDeclaration (import_path (parents 3 ++ "a/b/../c"))) 2 log_report []
  = [(PathImportDeclaration (import_path (parents 3 ++ "a/b/../c")),
      violation_message (parents 3 ++ "a/b/../c") 2)].
Proof.
  apply (proj2 (X3_leading_parents_always_reported 3 "a/b/../c"
                  (PathImportDeclaration (import_path (parents 3 ++ "a/b/../c")))
                  2 [] ltac:(lia) ltac:(lia))).
Defined.

(** ** Specifiers without a slash *)

Lemma contains_char_match_here s rest :
  JS.match_here parent_segment s = Some rest -> contains_char "/" s = true.
Proof.
  intros H. apply match_here_app in H. subst s.
  cbn [parent_segment append contains_char].
  rewrite Ascii.eqb_refl. now rewrite !orb_true_r.
Qed.

Lemma count_without_slash s :
  contains_char "/" s = false -> count_nonoverlapping s = 0.
Proof.
  induction s as [|c t IH]; [reflexivity|].
  intros H. rewrite count_nonoverlapping_step.
  destruct (JS.match_here parent_segment (String c t)) as [rest|] eqn:E.
  - apply contains_char_match_here in E. congruence.
  - apply IH. cbn [contains_char] in H.
    now apply orb_false_iff in H.
Qed.

(** X4.  Only the forward slash makes a parent segment: a specifier in
    which no [/] occurs (a path written with backslashes, say) has depth
    0 and is reported under no limit that is not negative. *)
Theorem X4_no_slash_never_reported :
  forall (St : Type) (s : string) (p : AnyNodePath) (limit : Z)
         (report : ReportFn St) (st : St),
    contains_char "/" s = false ->
    (0 <= limit)%Z ->
    depth s = 0 /\ checkRelativePath s p limit report st = st.
Proof.
  intros St s p limit report st Hs Hlimit.
  pose proof (count_without_slash s Hs) as H0.
  split; [now rewrite depth_count|].
  apply checkRelativePath_within. lia.
Qed.

Lemma X4_witness :
  depth "..\..\..\..\utils" = 0
  /\ checkRelativePath "..\..\..\..\utils"
       (PathImportDeclaration (import_path "..\..\..\..\utils")) 2 log_report []
     = [].
Proof.
  apply (X4_no_slash_never_reported (list Report) "..\..\..\..\utils"
           (PathImportDeclaration (import_path "..\..\..\..\utils")) 2
           log_report []);
    [reflexivity | lia].
Defined.

(** ** The limit *)

Lemma checkRelativePath_log s p L (log : list Report) :
  checkRelativePath s p L log_report log =
  (log ++ if JS.startsWith s "." && (Z.of_nat (count_nonoverlapping s) >? L)%Z
          then [(p, violation_message s L)] else [])%list.
Proof.
  rewrite checkRelativePath_eq.
  destruct (JS.startsWith s "." && (Z.of_nat (count_nonoverlapping s) >? L)%Z);
    [reflexivity | now rewrite app_nil_r].
Qed.

Lemma checkRelativePath_log_reported s p L (log : list Report) :
  checkRelativePath s p L log_report log <> log <->
  JS.startsWith s "." = true /\ (Z.of_nat (count_nonoverlapping s) > L)%Z.
Proof.
  rewrite checkRelativePath_log.
  destruct (JS.startsWith s ".") eqn:Hrel; cbn [andb].
  - destruct (Z.gtb_spec (Z.of_nat (count_nonoverlapping s)) L) as [Hgt|Hle].
    + split; [intros _; split; [reflexivity | lia]|].
      intros _. apply log_report_grows.
    + rewrite app_nil_r. split; [congruence | intros [_ H]; lia].
  - rewrite app_nil_r. split; [congruence | intros [H _]; discriminate].
Qed.

(** X5.  Lowering the limit never removes a report and raising it never
    adds one: a specifier reported under a limit is reported under every
    smaller limit, and one that is not reported is not reported under any
    greater limit. *)
Theorem X5_reports_are_antitone_in_the_limit :
  forall (s : string) (p : AnyNodePath) (limit limit' : Z) (log : list Report),
    (limit' <= limit)%Z ->
    (checkRelativePath s p limit log_report log <> log ->
     checkRelativePath s p limit' log_report log
     = (log ++ [(p, violation_message s limit')])%list)
    /\ (checkRelativePath s p limit' log_report log = log ->
        checkRelativePath s p limit log_report log = log).
Proof.
  intros s p limit limit' log Hle. split.
  - intros H. apply checkRelativePath_log_reported in H as [Hrel Hgt].
    apply checkRelativePath_over; [exact Hrel | lia].
  - intros H.
    destruct (JS.startsWith s ".") eqn:Hrel;
      [|now apply checkRelativePath_not_relative].
    apply checkRelativePath_within.
    destruct (Z_le_gt_dec (Z.of_nat (count_nonoverlapping s)) limit')
      as [Hle'|Hgt]; [lia|].
    rewrite checkRelativePath_over in H by assumption.
    now apply log_report_grows in H.
Qed.

Lemma X5_witness :
  checkRelativePath "../../utils" (PathImportDeclaration (import_path "../../utils"))
    0 log_report []
  = [(PathImportDeclaration (import_path "../../utils"),
      violation_message "../../utils" 0)].
Proof.
  apply (proj1 (X5_reports_are_antitone_in_the_limit "../../utils"
                  (PathImportDeclaration (import_path "../../utils"))
                  1%Z 0%Z [] ltac:(lia))).
  vm_compute. discriminate.
Defined.



(** ** One visit *)

Lemma checkRelativePath_appends s p L :
  appends_at_most_one p (checkRelativePath s p L log_report).
Proof.
  exists (if JS.startsWith s "." && (Z.of_nat (count_nonoverlapping s) >? L)%Z
          then [(p, violation_message s L)] else []).
  split.
  - destruct (JS.startsWith s "." && _); [right; eauto | now left].
  - intros log. apply checkRelativePath_log.
Qed.

Lemma check_first_argument_cases {St : Type} p L (report : ReportFn St) :
  (forall st, check_first_argument Babel.t p L report st = st)
  \/ exists s,
       nth_error (CallExpression.arguments (node p)) 0
       = Some (StringLiteralNode {| value := s |})
       /\ forall st, check_first_argument Babel.t p L report st
                     = checkRelativePath s (PathCallExpression p) L report st.
Proof.
  destruct (nth_error (CallExpression.arguments (node p)) 0)
    as [[| | |[s]|]|] eqn:E;
    try (left; intros st; unfold check_first_argument; now rewrite E).
  right. exists s. split; [reflexivity|].
  intros st. now apply (check_first_argument_literal p L report st {| value := s |}).
Qed.

Lemma examined_callee_dec callee :
  (examined_callee callee
   /\ (Babel.isImport Babel.t (Some callee) = true
       \/ is_require_callee Babel.t callee = true))
  \/ (~ examined_callee callee
      /\ callee <> Import /\ is_require_callee Babel.t callee = false).
Proof.
  destruct callee as [|name|object property computed|lit|type].
  - left. split; [now left | now left].
  - destruct (is_require_callee Babel.t (Identifier name)) eqn:E.
    + left. split; [|now right].
      apply is_require_callee_shape in E. now right.
    + right. repeat split; [|discriminate].
      intros [H|H]; [discriminate|].
      apply is_require_callee_shape in H. congruence.
  - destruct (is_require_callee Babel.t (MemberExpression object property computed))
      eqn:E.
    + left. split; [|now right].
      apply is_require_callee_shape in E. now right.
    + right. repeat split; [|discriminate].
      intros [H|H]; [discriminate|].
      apply is_require_callee_shape in H. congruence.
  - right. repeat split; [|discriminate].
    intros [H|[H|(x & y & H)]]; discriminate.
  - right. repeat split; [|discriminate].
    intros [H|[H|(x & y & H)]]; discriminate.
Qed.

Lemma visit_call_examined {St : Type} (options : PluginOptions St) p st :
  examined_callee (CallExpression.callee (node p)) ->
  CallExpression (visitor (plugin Babel.core options)) p st
  = check_first_argument Babel.t p 2 (report options) st.
Proof.
  intros [H|H].
  - now apply visit_call_import.
  - apply visit_call_require. apply is_require_callee_shape. exact H.
Qed.

Lemma visit_call_not_examined {St : Type} (options : PluginOptions St) p st :
  ~ examined_callee (CallExpression.callee (node p)) ->
  CallExpression (visitor (plugin Babel.core options)) p st = st.
Proof.
  intros H.
  destruct (examined_callee_dec (CallExpression.callee (node p)))
    as [[Hex _]|(_ & Hi & Hr)]; [contradiction|].
  now apply visit_call_other.
Qed.

(** X7.  Every visit of each of the four visitors makes at most one
    report, for the path it is called with, keeps the reports made before
    it, and reports the same whatever was reported before. *)
Theorem X7_visits_append_at_most_one_report :
  let v := visitor (plugin Babel.core log_options) in
  (forall p, appends_at_most_one (PathImportDeclaration p) (ImportDeclaration v p))
  /\ (forall p, appends_at_most_one (PathCallExpression p) (CallExpression v p))
  /\ (forall p, appends_at_most_one (PathExportNamedDeclaration p)
                  (ExportNamedDeclaration v p))
  /\ (forall p, appends_at_most_one (PathExportAllDeclaration p)
                  (ExportAllDeclaration v p)).
Proof.
  cbv zeta. split; [|split; [|split]]; intros p.
  - apply checkRelativePath_appends.
  - destruct (examined_callee_dec (CallExpression.callee (node p)))
      as [[Hex _]|[Hnot _]].
    + destruct (check_first_argument_cases p 2%Z log_report) as [Hid|(s & _ & Hs)].
      * exists []. split; [now left|]. intros log.
        rewrite visit_call_examined by exact Hex.
        cbn [report log_options]. rewrite Hid. now rewrite app_nil_r.
      * destruct (checkRelativePath_appends s (PathCallExpression p) 2%Z)
          as (out & Hout & Hlog).
        exists out. split; [exact Hout|]. intros log.
        rewrite visit_call_examined by exact Hex.
        cbn [report log_options]. rewrite Hs. apply Hlog.
    + exists []. split; [now left|]. intros log.
      rewrite visit_call_not_examined by exact Hnot. now rewrite app_nil_r.
  - destruct (ExportNamedDeclaration.source (node p)) as [source|] eqn:E.
    + destruct (checkRelativePath_appends (value source)
                  (PathExportNamedDeclaration p) 2%Z) as (out & Hout & Hlog).
      exists out. split; [exact Hout|]. intros log.
      rewrite visit_export_named, E. apply Hlog.
    + exists []. split; [now left|]. intros log.
      rewrite visit_export_named, E. now rewrite app_nil_r.
  - apply checkRelativePath_appends.
Qed.

(** X8.  The visitor of call expressions reports exactly the calls whose
    callee is the import operator, the identifier [require] or a member
    access on the identifier [require], and whose first argument is a
    string literal that begins with [.] and holds more than two [../]. *)
Theorem X8_reported_calls :
  forall (p : NodePath CallExpression.t) (log : list Report),
    CallExpression (visitor (plugin Babel.core log_options)) p log <> log
    <-> (examined_callee (CallExpression.callee (node p))
         /\ exists s,
              nth_error (CallExpression.arguments (node p)) 0
              = Some (StringLiteralNode {| value := s |})
              /\ JS.startsWith s "." = true
              /\ (Z.of_nat (count_nonoverlapping s) > 2)%Z).
Proof.
  intros p log. split.
  - intros H.
    destruct (examined_callee_dec (CallExpression.callee (node p)))
      as [[Hex _]|[Hnot _]].
    + split; [exact Hex|].
      rewrite visit_call_examined in H by exact Hex.
      destruct (check_first_argument_cases p 2%Z log_report) as [Hid|(s & Harg & Hs)].
      * cbn [report log_options] in H. now rewrite Hid in H.
      * exists s. split; [exact Harg|].
        cbn [report log_options] in H. rewrite Hs in H.
        now apply checkRelativePath_log_reported in H.
    + now rewrite visit_call_not_examined in H by exact Hnot.
  - intros (Hex & s & Harg & Hrel & Hgt).
    rewrite visit_call_examined by exact Hex.
    rewrite (check_first_argument_literal p 2 _ log {| value := s |}) by exact Harg.
    apply checkRelativePath_log_reported. now split.
Qed.

Lemma X8_witness :
  CallExpression (visitor (plugin Babel.core log_options))
    (call_path Import [StringLiteralNode {| value := "../../../pages/home" |}]) []
  <> [].
Proof.
  apply (proj2 (X8_reported_calls
                  (call_path Import
                     [StringLiteralNode {| value := "../../../pages/home" |}]) [])).
  split; [now left|].
  exists "../../../pages/home".
  split; [reflexivity | split; [reflexivity | vm_compute; reflexivity]].
Defined.

(** X9.  Only the first argument of a call is looked at: two calls with
    the same callee and the same first argument are reported alike,
    whatever their other arguments, and a call without arguments is never
    reported. *)
Theorem X9_only_the_first_argument_counts :
  forall (callee first : Expression) (rest rest' : list Expression)
         (log : list Report),
    let v := visitor (plugin Babel.core log_options) in
    map snd (CallExpression v (call_path callee (first :: rest)) log)
    = map snd (CallExpression v (call_path callee (first :: rest')) log)
    /\ CallExpression v (call_path callee []) log = log.
Proof.
  intros callee first rest rest' log v. unfold v. split.
  - destruct (examined_callee_dec callee) as [[Hex _]|[Hnot _]].
    + rewrite !visit_call_examined by exact Hex.
      unfold check_first_argument.
      cbn [call_path node CallExpression.arguments nth_error].
      destruct first as [| | |lit|]; try reflexivity.
      cbn [andb Babel.isStringLiteral Babel.t Babel.value_of].
      rewrite !checkRelativePath_log, !map_app.
      now destruct (JS.startsWith (value lit) "." && _).
    + now rewrite !visit_call_not_examined by exact Hnot.
  - destruct (examined_callee_dec callee) as [[Hex _]|[Hnot _]].
    + now rewrite visit_call_examined by exact Hex.
    + now rewrite visit_call_not_examined by exact Hnot.
Qed.

(** ** The message *)

(** X10.  Under one limit the message tells the specifier: two reports
    with the same message were made for the same specifier. *)
Theorem X10_message_determines_specifier :
  forall (s s' : string) (limit : Z),
    violation_message s limit = violation_message s' limit -> s = s'.
Proof.
  intros s s' limit H. unfold violation_message in H.
  apply string_append_inv_head in H.
  apply string_append_inv_head in H.
  now apply string_append_inv_tail in H.
Qed.

Lemma X10_witness : "../../../utils" = "../../../utils".
Proof.
  apply (X10_message_determines_specifier "../../../utils" "../../../utils" 2).
  reflexivity.
Defined.

(** ** Joining two strings *)

Lemma occurrences_append_lower a b :
  occurrences a + occurrences b <= occurrences (a ++ b).
Proof.
  induction a as [|c t IH]; [reflexivity|].
  change (String c t ++ b) with (String c (t ++ b)).
  cbn [occurrences]. rewrite !prefix_match_here.
  destruct (JS.match_here "../" (String c t)) as [rest|] eqn:E.
  - apply (match_here_append _ _ b) in E.
    change (String c t ++ b) with (String c (t ++ b)) in E.
    rewrite E. lia.
  - destruct (JS.match_here "../" (String c (t ++ b))); lia.
Qed.

Lemma occurrences_append_upper a b :
  occurrences (a ++ b) <= occurrences a + occurrences b + 1.
Proof.
  induction a as [|c t IH]; [simpl; lia|].
  change (String c t ++ b) with (String c (t ++ b)).
  cbn [occurrences]. rewrite !prefix_match_here.
  destruct t as [|d [|e t']].
  - cbn [append occurrences].
    destruct (JS.match_here "../" (String c b));
      destruct (JS.match_here "../" (String c EmptyString)); lia.
  - cbn [append occurrences] in *. rewrite !prefix_match_here.
    assert (Hone :
      (if match JS.match_here "../" (String c (String d b)) with
          | Some _ => true | None => false end then 1 else 0)
      + (if match JS.match_here "../" (String d b) with
            | Some _ => true | None => false end then 1 else 0) <= 1).
    { destruct (JS.match_here "../" (String c (String d b))) as [r1|] eqn:E1;
        destruct (JS.match_here "../" (String d b)) as [r2|] eqn:E2;
        simpl; try lia.
      apply match_here_app in E1. apply match_here_app in E2.
      cbn [append] in E1, E2.
      inversion E1 as [[Hc Hd Hb]]. rewrite Hb in E2.
      inversion E2. }
    lia.
  - cbn [append] in *.
    replace (match JS.match_here "../" (String c (String d (String e (t' ++ b))))
             with Some _ => true | None => false end)
      with (match JS.match_here "../" (String c (String d (String e t')))
            with Some _ => true | None => false end).
    + lia.
    + cbn [JS.match_here].
      destruct (Ascii.eqb "." c), (Ascii.eqb "." d), (Ascii.eqb "/" e);
        reflexivity.
Qed.

(** X11.  Joining two strings keeps every [../] of either and can make
    at most one more, across the join: the depth of [a ++ b] is the sum of
    the two depths, or this sum plus one. *)
Theorem X11_depth_of_a_join :
  forall (a b : string),
    depth a + depth b <= depth (a ++ b)
    /\ depth (a ++ b) <= depth a + depth b + 1.
Proof.
  intros a b. rewrite !depth_count, !count_occurrences. split.
  - apply occurrences_append_lower.
  - apply occurrences_append_upper.
Qed.

(** ** The declarations that are reported *)

(** X12.  The three declaration visitors report exactly the declarations
    whose source begins with [.] and holds more than two [../]: an import
    and an export-all by their source, a named export only if it has a
    source. *)
Theorem X12_reported_declarations :
  forall (log : list Report),
    let v := visitor (plugin Babel.core log_options) in
    let deep s :=
      JS.startsWith s "." = true /\ (Z.of_nat (count_nonoverlapping s) > 2)%Z in
    (forall p, ImportDeclaration v p log <> log
               <-> deep (value (ImportDeclaration.source (node p))))
    /\ (forall p, ExportNamedDeclaration v p log <> log
                  <-> exists source,
                        ExportNamedDeclaration.source (node p) = Some source
                        /\ deep (value source))
    /\ (forall p, ExportAllDeclaration v p log <> log
                  <-> deep (value (ExportAllDeclaration.source (node p)))).
Proof.
  intros log v deep. unfold v, deep. split; [|split]; intros p.
  - rewrite visit_import. apply checkRelativePath_log_reported.
  - rewrite visit_export_named.
    destruct (ExportNamedDeclaration.source (node p)) as [source|].
    + cbn [report log_options]. rewrite checkRelativePath_log_reported. split.
      * intros H. now exists source.
      * intros (source' & Heq & H). now inversion Heq; subst.
    + split; [congruence | intros (source & Heq & _); discriminate].
  - rewrite visit_export_all. apply checkRelativePath_log_reported.
Qed.

Lemma X12_witness :
  ExportNamedDeclaration (visitor (plugin Babel.core log_options))
    (export_named_path (Some "../../../shared/types")) []
  <> [].
Proof.
  apply (proj2 (proj1 (proj2 (X12_reported_declarations []))
                  (export_named_path (Some "../../../shared/types")))).
  exists {| value := "../../../shared/types" |}.
  split; [reflexivity | split; [reflexivity | vm_compute; reflexivity]].
Defined.
